(** * Lens distortion models of [kornia.sensors.camera.distortion_model]

    A shallow embedding of the three transform classes of
    [distortion_model.py] and the properties that its specification states
    about them.

    Tensor entries are idealised: the functions are written once over an
    abstract scalar type carrying the element-wise operations the source
    uses ([+], [-], [*], [/], unary minus and numeric literals), and are then
    read at the real numbers, where the algebraic statements live, and at the
    canonical rationals, where they run.  Rounding is not part of the model.

    Element-wise tensor arithmetic treats every element of a batch on its
    own, so the embedding follows one element: a parameter tensor is the
    sequence of entries along its trailing axis and a point is one coordinate
    pair.  Python exceptions are the [Raise] branch of [result]. *)

From Stdlib Require Import ZArith List Lia Reals Lra QArith Qcanon.
Import ListNotations.

(** ** Python results *)

Inductive exn : Type :=
| IndexError
| NotImplementedError.

Inductive result (A : Type) : Type :=
| Ok (a : A)
| Raise (e : exn).

Arguments Ok {A} a.
Arguments Raise {A} e.

Definition bind {A B : Type} (m : result A) (f : A -> result B) : result B :=
  match m with
  | Ok a => f a
  | Raise e => Raise e
  end.

Notation "v <- m ;; k" := (bind m (fun v => k))
  (at level 61, m at next level, right associativity).

(** [for _ in range(n): body], the body acting on the local variables [s]. *)
Fixpoint for_range {S : Type} (n : nat) (body : S -> result S) (s : S)
  : result S :=
  match n with
  | O => Ok s
  | Datatypes.S k => s' <- body s ;; for_range k body s'
  end.

(** ** The scalar interface *)

Class Scalar (T : Type) : Type := {
  add : T -> T -> T;
  sub : T -> T -> T;
  mul : T -> T -> T;
  div : T -> T -> T;
  neg : T -> T;
  lit : Z -> T
}.

Declare Scope tensor_scope.
Delimit Scope tensor_scope with tensor.
Notation "a + b" := (add a b) : tensor_scope.
Notation "a - b" := (sub a b) : tensor_scope.
Notation "a * b" := (mul a b) : tensor_scope.
Notation "a / b" := (div a b) : tensor_scope.
Notation "- a" := (neg a) : tensor_scope.

#[export] Instance Scalar_R : Scalar R := {
  add := Rplus; sub := Rminus; mul := Rmult; div := Rdiv; neg := Ropp;
  lit := IZR
}.

#[export] Instance Scalar_Qc : Scalar Qc := {
  add := Qcplus; sub := Qcminus; mul := Qcmult; div := Qcdiv; neg := Qcopp;
  lit := fun z => Q2Qc (inject_Z z)
}.

(** ** Tensors and points *)

Module Tensor.
Section Defs.
Context {T : Type}.

(** The entries of a parameter tensor along its trailing axis. *)
Definition t : Type := list T.

(** [d[..., i]]: entry [i] of the trailing axis. *)
Definition getitem_last (d : t) (i : nat) : result T :=
  match nth_error d i with
  | Some v => Ok v
  | None => Raise IndexError
  end.

(** [d[i]]: entry [i] of the leading axis.  On the one-axis tensors of this
    model the leading axis is the trailing one; on a tensor with batch
    axes [d[i]] would select a whole row instead. *)
Definition getitem (d : t) (i : nat) : result T :=
  match nth_error d i with
  | Some v => Ok v
  | None => Raise IndexError
  end.
End Defs.
Arguments t T : clear implicits.
End Tensor.

Notation "d @[..., i ]" := (Tensor.getitem_last d i)
  (at level 1, format "d @[...,  i ]").
Notation "d @[ i ]" := (Tensor.getitem d i)
  (at level 1, format "d @[ i ]").

Module Vector2.
Section Defs.
Context {T : Type} `{Scalar T}.

(** Modelled from the spec: [kornia.geometry.vector.Vector2], which is not
    part of the sources.  A point is a coordinate pair with accessors [x]
    and [y], built by [from_coords] from two coordinates; [data] is its
    packed form, two channels on the last axis; the difference of two
    points is taken coordinate by coordinate. *)
Record t : Type := from_coords { x : T; y : T }.

Definition data (p : t) : Tensor.t T := [x p; y p].

Definition vsub (p q : t) : t :=
  from_coords (x p - x q)%tensor (y p - y q)%tensor.
End Defs.
Arguments t T : clear implicits.
End Vector2.

(** ** [class AffineTransform] *)

Module AffineTransform.
Section Defs.
Context {T : Type} `{Scalar T}.
Local Open Scope tensor_scope.

Definition distort (params : Tensor.t T) (points : Vector2.t T)
  : result (Vector2.t T) :=
  fx <- params @[..., 0] ;;
  fy <- params @[..., 1] ;;
  cx <- params @[..., 2] ;;
  cy <- params @[..., 3] ;;
  let u := Vector2.x points * fx + cx in
  let v := Vector2.y points * fy + cy in
  Ok (Vector2.from_coords u v).

Definition undistort (params : Tensor.t T) (points : Vector2.t T)
  : result (Vector2.t T) :=
  fx <- params @[..., 0] ;;
  fy <- params @[..., 1] ;;
  cx <- params @[..., 2] ;;
  cy <- params @[..., 3] ;;
  let x := (Vector2.x points - cx) / fx in
  let y := (Vector2.y points - cy) / fy in
  Ok (Vector2.from_coords x y).
End Defs.
End AffineTransform.

(** ** [class BrownConradyTransform] *)

Module BrownConradyTransform.
Section Defs.
Context {T : Type} `{Scalar T}.
Local Open Scope tensor_scope.

Definition project (distortion_params : Tensor.t T) (points : Vector2.t T)
  : result (Vector2.t T) :=
  let x := Vector2.x points in
  let y := Vector2.y points in
  k1 <- distortion_params @[..., 0] ;;
  k2 <- distortion_params @[..., 1] ;;
  p1 <- distortion_params @[..., 2] ;;
  p2 <- distortion_params @[..., 3] ;;
  k3 <- distortion_params @[..., 4] ;;
  k4 <- distortion_params @[..., 5] ;;
  k5 <- distortion_params @[..., 6] ;;
  k6 <- distortion_params @[..., 7] ;;
  let r2 := x * x + y * y in
  let r4 := r2 * r2 in
  let r6 := r4 * r2 in
  let a1 := lit 2 * x * y in
  let a2 := r2 + lit 2 * x * x in
  let a3 := r2 + lit 2 * y * y in
  let cdist := lit 1 + k1 * r2 + k2 * r4 + k3 * r6 in
  let icdist := lit 1 / (lit 1 + k4 * r2 + k5 * r4 + k6 * r6) in
  let xd0 := x * cdist * icdist + p1 * a1 + p2 * a2 in
  let yd0 := y * cdist * icdist + p1 * a3 + p2 * a1 in
  Ok (Vector2.from_coords xd0 yd0).

(** The four entries [du_dx], [du_dy], [dv_dx], [dv_dy] that one pass of the
    loop of [unproject] computes. *)
Record jacobian : Type := Jacobian {
  du_dx : T; du_dy : T; dv_dx : T; dv_dy : T
}.

(** Lines 85 to 113: the block of [unproject] that computes the Jacobian
    entries from [a = x], [b = y] and [d = distortion_params].  Every index
    is read where the source reads it; the last two lines index [d[2]]
    without the ellipsis. *)
Definition unproject_jacobian (d : Tensor.t T) (a b : T) : result jacobian :=
  let c0 := a * a in
  let c1 := b * b in
  let c2 := c0 + c1 in
  let c3 := c2 * c2 in
  let c4 := c3 * c2 in
  d5 <- d @[..., 5] ;;
  d6 <- d @[..., 6] ;;
  d7 <- d @[..., 7] ;;
  let c5 := c2 * d5 + c3 * d6 + c4 * d7 + lit 1 in
  let c6 := c5 * c5 in
  let c7 := lit 1 / c6 in
  d3 <- d @[..., 3] ;;
  let c8 := a * d3 in
  d2 <- d @[..., 2] ;;
  let c9 := lit 2 * d2 in
  let c10 := lit 2 * c2 in
  let c11 := lit 3 * c3 in
  d0 <- d @[..., 0] ;;
  let c12 := c2 * d0 in
  d1 <- d @[..., 1] ;;
  let c13 := c3 * d1 in
  d4 <- d @[..., 4] ;;
  let c14 := c4 * d4 in
  let c15 := lit 2 * (c10 * d6 + c11 * d7 + d5) * (c12 + c13 + c14 + lit 1) in
  let c16 := lit 2 * c10 * d1 + lit 2 * c11 * d4 + lit 2 * d0 in
  let c17 := lit 1 * c12 + lit 1 * c13 + lit 1 * c14 + lit 1 in
  let c18 := b * d3 in
  let c19 := a * b in
  let c20 := - c15 * c19 + c16 * c19 * c15 in
  let du_dx :=
    c7 * (- c0 * c15 + c5 * (c0 * c16 + c17) + c6 * (b * c9 + lit 6 * c8)) in
  let du_dy := c7 * (c20 + c6 * (a * c9 + lit 2 * c18)) in
  d_2 <- d @[2] ;;
  let dv_dx := c7 * (c20 + c6 * (lit 2 * a * d_2 + lit 2 * c18)) in
  let dv_dy :=
    c7 * (- c1 * c15 + c5 * (c1 * c16 + c17)
          + c6 * (lit 6 * b * d_2 + lit 2 * c8)) in
  Ok (Jacobian du_dx du_dy dv_dx dv_dy).

(** The local variables of [unproject] that outlive one pass of its loop:
    the estimate [xy], and the residual and Jacobian entries of the last
    pass (unbound before the first one). *)
Record locals : Type := Locals {
  xy : Tensor.t T;
  f_xy : option (Vector2.t T);
  jac : option jacobian
}.

(** One pass of [for i in range(50)].  No statement of the body assigns
    [xy]. *)
Definition unproject_body (distortion_params : Tensor.t T)
  (uv_normalized : Vector2.t T) (s : locals) : result locals :=
  x <- (xy s) @[..., 0] ;;
  y <- (xy s) @[..., 1] ;;
  p <- project distortion_params (Vector2.from_coords x y) ;;
  let f_xy := Vector2.vsub p uv_normalized in
  j <- unproject_jacobian distortion_params x y ;;
  Ok (Locals (xy s) (Some f_xy) (Some j)).

Definition unproject_loop (distortion_params : Tensor.t T)
  (uv_normalized : Vector2.t T) : result locals :=
  let xy := Vector2.data uv_normalized in
  for_range 50 (unproject_body distortion_params uv_normalized)
    (Locals xy None None).

(** The body of [unproject] ends with its loop: there is no [return], so a
    call that raises nothing evaluates to Python's [None], here the [None]
    of [option]. *)
Definition unproject (distortion_params : Tensor.t T)
  (uv_normalized : Vector2.t T) : result (option (Vector2.t T)) :=
  _ <- unproject_loop distortion_params uv_normalized ;;
  Ok None.

Definition distort (params : Tensor.t T) (points : Vector2.t T)
  : result (Vector2.t T) :=
  Raise NotImplementedError.

Definition undistort (params : Tensor.t T) (points : Vector2.t T)
  : result (Vector2.t T) :=
  Raise NotImplementedError.
End Defs.
Arguments jacobian T : clear implicits.
Arguments locals T : clear implicits.
End BrownConradyTransform.

(** ** [class KannalaBrandtK3Transform] *)

Module KannalaBrandtK3Transform.
Section Defs.
Context {T : Type} `{Scalar T}.

Definition distort (params : Tensor.t T) (points : Vector2.t T)
  : result (Vector2.t T) :=
  Raise NotImplementedError.

Definition undistort (params : Tensor.t T) (points : Vector2.t T)
  : result (Vector2.t T) :=
  Raise NotImplementedError.
End Defs.
End KannalaBrandtK3Transform.

(** ** The formulas of the specification *)

(** The denominator of the radial factor at the point [(x, y)]. *)
Definition radial_denominator (k4 k5 k6 x y : R) : R :=
  let r2 := (x ^ 2 + y ^ 2)%R in
  let r4 := (r2 ^ 2)%R in
  let r6 := (r4 * r2)%R in
  (1 + k4 * r2 + k5 * r4 + k6 * r6)%R.

(** The forward map in the words of the specification, over the reals:
    the pair [(xd, yd)] for coefficients [k1 .. k6], [p1], [p2] and the point
    [(x, y)]. *)
Definition project_spec (k1 k2 p1 p2 k3 k4 k5 k6 x y : R) : Vector2.t R :=
  let r2 := (x ^ 2 + y ^ 2)%R in
  let r4 := (r2 ^ 2)%R in
  let r6 := (r4 * r2)%R in
  let radial_num := (1 + k1 * r2 + k2 * r4 + k3 * r6)%R in
  let radial_den := (1 / (1 + k4 * r2 + k5 * r4 + k6 * r6))%R in
  let a1 := (2 * x * y)%R in
  let a2 := (r2 + 2 * x ^ 2)%R in
  let a3 := (r2 + 2 * y ^ 2)%R in
  Vector2.from_coords
    (x * radial_num * radial_den + p1 * a1 + p2 * a2)%R
    (y * radial_num * radial_den + p1 * a3 + p2 * a1)%R.

(** The first and the second coordinate of [project] as real functions of
    the point, the coefficient vector fixed; a call that raises has no
    coordinates, and the functions are then read as [0]. *)
Definition project_u (d : Tensor.t R) (x y : R) : R :=
  match BrownConradyTransform.project d (Vector2.from_coords x y) with
  | Ok p => Vector2.x p
  | Raise _ => 0%R
  end.

Definition project_v (d : Tensor.t R) (x y : R) : R :=
  match BrownConradyTransform.project d (Vector2.from_coords x y) with
  | Ok p => Vector2.y p
  | Raise _ => 0%R
  end.

(** What the entries [du_dy] and [dv_dx] of the source lack to be the mixed
    partial derivatives of the forward map.  With [num] and [den] the
    numerator and the denominator of the radial factor and [num'], [den']
    their derivatives in [r2], the mixed partials carry the term
    [2*x*y*(num'*den - num*den')/den^2]; the source's [c20] multiplies
    [c16*c19] by [c15 = 2*den'*num] where the quotient rule has
    [c5 = den]. *)
Definition cross_term_defect (k1 k2 k3 k4 k5 k6 x y : R) : R :=
  let r2 := (x ^ 2 + y ^ 2)%R in
  let num := (1 + k1 * r2 + k2 * r2 ^ 2 + k3 * r2 ^ 3)%R in
  let den := (1 + k4 * r2 + k5 * r2 ^ 2 + k6 * r2 ^ 3)%R in
  let num' := (k1 + 2 * k2 * r2 + 3 * k3 * r2 ^ 2)%R in
  let den' := (k4 + 2 * k5 * r2 + 3 * k6 * r2 ^ 2)%R in
  (2 * x * y * num' * (den - 2 * den' * num) / den ^ 2)%R.

(** ** Running the model *)

(** The outcome of a call over the canonical rationals, as plain fractions
    in lowest terms; [None] when the call raises. *)
Definition point_run (r : result (Vector2.t Qc)) : option (Q * Q) :=
  match r with
  | Ok p => Some (this (Vector2.x p), this (Vector2.y p))
  | Raise _ => None
  end.

Definition jacobian_run (r : result (BrownConradyTransform.jacobian Qc))
  : option (Q * Q * Q * Q) :=
  match r with
  | Ok j =>
      Some (this (BrownConradyTransform.du_dx j),
            this (BrownConradyTransform.du_dy j),
            this (BrownConradyTransform.dv_dx j),
            this (BrownConradyTransform.dv_dy j))
  | Raise _ => None
  end.

(** A tensor or a point with integer entries. *)
Definition tensor_of_Z {T : Type} `{Scalar T} (l : list Z) : Tensor.t T :=
  map lit l.

Definition point_of_Z {T : Type} `{Scalar T} (a b : Z) : Vector2.t T :=
  Vector2.from_coords (lit a) (lit b).

(** ** Properties that hold over every scalar type *)

Section Generic.
Context {T : Type} `{Scalar T}.

Lemma getitem_last_agree (p q : Tensor.t T) (i : nat) :
  nth_error p i = nth_error q i -> p @[..., i] = q @[..., i].
Proof.
  unfold Tensor.getitem_last. intros E. rewrite E. reflexivity.
Qed.

(** C10: [distort] and [undistort] of the affine transform read entries 0 to
    3 of the trailing axis only: two parameter tensors that agree on these
    four entries give the same outcome at every point, whatever else they
    hold. *)
Theorem affine_reads_four_entries (p q : Tensor.t T) (pt : Vector2.t T) :
  (forall i : nat, (i < 4)%nat -> nth_error p i = nth_error q i) ->
  AffineTransform.distort p pt = AffineTransform.distort q pt /\
  AffineTransform.undistort p pt = AffineTransform.undistort q pt.
Proof.
  intros E.
  assert (E0 : p @[..., 0] = q @[..., 0]) by (apply getitem_last_agree, E; lia).
  assert (E1 : p @[..., 1] = q @[..., 1]) by (apply getitem_last_agree, E; lia).
  assert (E2 : p @[..., 2] = q @[..., 2]) by (apply getitem_last_agree, E; lia).
  assert (E3 : p @[..., 3] = q @[..., 3]) by (apply getitem_last_agree, E; lia).
  unfold AffineTransform.distort, AffineTransform.undistort.
  rewrite E0, E1, E2, E3. split; reflexivity.
Qed.

(** X1: a parameter tensor with fewer than four trailing entries makes both
    operations of the affine transform raise [IndexError]. *)
Lemma affine_short_params (p : Tensor.t T) (pt : Vector2.t T) :
  (length p < 4)%nat ->
  AffineTransform.distort p pt = Raise IndexError /\
  AffineTransform.undistort p pt = Raise IndexError.
Proof.
  intros L.
  destruct p as [| a [| b [| c [| e p]]]]; cbn in L; try lia;
    split; reflexivity.
Qed.

(** C6: [distort] and [undistort] of [BrownConradyTransform] and of
    [KannalaBrandtK3Transform] raise [NotImplementedError] on every input,
    and so return no value. *)
Theorem unsupported_operations (params : Tensor.t T) (points : Vector2.t T) :
  (BrownConradyTransform.distort params points = Raise NotImplementedError /\
   BrownConradyTransform.undistort params points = Raise NotImplementedError /\
   KannalaBrandtK3Transform.distort params points = Raise NotImplementedError /\
   KannalaBrandtK3Transform.undistort params points
     = Raise NotImplementedError) /\
  (forall v : Vector2.t T,
     BrownConradyTransform.distort params points <> Ok v /\
     BrownConradyTransform.undistort params points <> Ok v /\
     KannalaBrandtK3Transform.distort params points <> Ok v /\
     KannalaBrandtK3Transform.undistort params points <> Ok v).
Proof.
  split.
  - repeat split.
  - intros v. repeat split; discriminate.
Qed.

End Generic.

(** ** The inverse map as the source has it *)

Section Unproject.
Context {T : Type} `{Scalar T}.
Variables k1 k2 p1 p2 k3 k4 k5 k6 : T.

Local Abbreviation d := [k1; k2; p1; p2; k3; k4; k5; k6].

(** On eight coefficients one pass of the loop raises nothing and leaves the
    estimate as it found it. *)
Lemma unproject_body_keeps_xy (uv : Vector2.t T)
  (s : BrownConradyTransform.locals T) (u v : T) :
  BrownConradyTransform.xy s = [u; v] ->
  exists s' : BrownConradyTransform.locals T,
    BrownConradyTransform.unproject_body d uv s = Ok s' /\
    BrownConradyTransform.xy s' = [u; v].
Proof.
  intros E. unfold BrownConradyTransform.unproject_body. rewrite E.
  cbn. eexists. split; [reflexivity | reflexivity].
Qed.

Lemma for_range_keeps_xy (uv : Vector2.t T) (u v : T) (n : nat) :
  forall s : BrownConradyTransform.locals T,
    BrownConradyTransform.xy s = [u; v] ->
    exists s' : BrownConradyTransform.locals T,
      for_range n (BrownConradyTransform.unproject_body d uv) s = Ok s' /\
      BrownConradyTransform.xy s' = [u; v].
Proof.
  induction n as [| n IH]; intros s E.
  - exists s. split; [reflexivity | exact E].
  - destruct (unproject_body_keeps_xy uv s u v E) as [s1 [B1 E1]].
    destruct (IH s1 E1) as [s2 [B2 E2]].
    exists s2. split; [| exact E2].
    cbn [for_range]. rewrite B1. exact B2.
Qed.

Lemma unproject_loop_keeps_target (uv : Vector2.t T) :
  exists s : BrownConradyTransform.locals T,
    BrownConradyTransform.unproject_loop d uv = Ok s /\
    BrownConradyTransform.xy s = Vector2.data uv.
Proof.
  unfold BrownConradyTransform.unproject_loop.
  apply (for_range_keeps_xy uv (Vector2.x uv) (Vector2.y uv) 50).
  reflexivity.
Qed.

Lemma unproject_is_None (uv : Vector2.t T) :
  BrownConradyTransform.unproject d uv = Ok None.
Proof.
  unfold BrownConradyTransform.unproject.
  destruct (unproject_loop_keeps_target uv) as [s [L _]].
  rewrite L. reflexivity.
Qed.

(** C1: what [unproject] does on eight coefficients and any target: its 50
    passes end with the estimate still equal to the target, no pass having
    solved a system or updated it, and the call evaluates to [None] instead
    of an estimate. *)
Theorem unproject_never_updates_nor_returns (uv : Vector2.t T) :
  BrownConradyTransform.unproject d uv = Ok None /\
  exists s : BrownConradyTransform.locals T,
    BrownConradyTransform.unproject_loop d uv = Ok s /\
    BrownConradyTransform.xy s = Vector2.data uv.
Proof.
  split.
  - apply unproject_is_None.
  - apply unproject_loop_keeps_target.
Qed.

(** C3: projecting a point and unprojecting the outcome, on any eight
    coefficients and at any point: the call evaluates to [None], so it
    returns no point, near the original or not. *)
Theorem unproject_after_project_returns_no_point (p : Vector2.t T) :
  (q <- BrownConradyTransform.project d p ;;
   BrownConradyTransform.unproject d q) = Ok None.
Proof.
  unfold BrownConradyTransform.project at 1.
  cbn [bind Tensor.getitem_last nth_error].
  apply unproject_is_None.
Qed.

End Unproject.


(** ** Properties over the reals *)

(** Unfolds the scalar operations at the reals. *)
Ltac at_reals :=
  cbn [bind Tensor.getitem_last Tensor.getitem nth_error
       add sub mul div neg lit Scalar_R
       Vector2.x Vector2.y Vector2.vsub Vector2.data].

(** Closes [e' <> 0] from a hypothesis [H : e <> 0] with [e] and [e'] equal
    as polynomials. *)
Ltac nonzero_from H :=
  let E := fresh "E" in intros E; apply H; rewrite <- E; ring.

Section OverTheReals.
Local Open Scope R_scope.

(** C7: with parameters ordered [fx, fy, cx, cy], [distort] maps [(x, y)] to
    [(x*fx + cx, y*fy + cy)], and for non-zero [fx] and [fy] [undistort] maps
    [(u, v)] to [((u - cx)/fx, (v - cy)/fy)]. *)
Theorem affine_formulas (fx fy cx cy x y : R) :
  AffineTransform.distort [fx; fy; cx; cy] (Vector2.from_coords x y)
    = Ok (Vector2.from_coords (x * fx + cx) (y * fy + cy)) /\
  (fx <> 0 -> fy <> 0 ->
   AffineTransform.undistort [fx; fy; cx; cy] (Vector2.from_coords x y)
     = Ok (Vector2.from_coords ((x - cx) / fx) ((y - cy) / fy))).
Proof.
  split; [| intros _ _]; reflexivity.
Qed.

(** C8: for non-zero [fx] and [fy], undistorting a distorted point gives the
    point back; over the reals the round trip is exact. *)
Theorem affine_round_trip (fx fy cx cy : R) (rest : list R) (x y : R) :
  fx <> 0 -> fy <> 0 ->
  (p <- AffineTransform.distort (fx :: fy :: cx :: cy :: rest)
          (Vector2.from_coords x y) ;;
   AffineTransform.undistort (fx :: fy :: cx :: cy :: rest) p)
    = Ok (Vector2.from_coords x y).
Proof.
  intros Hfx Hfy.
  unfold AffineTransform.distort, AffineTransform.undistort. at_reals.
  f_equal. f_equal; field; assumption.
Qed.

(** C9: the two examples of the docstrings: with parameters [(1, 2, 3, 4)]
    the point [(1, 2)] is distorted to [(4, 8)] and undistorted to
    [(-2, -1)]. *)
Theorem affine_examples :
  AffineTransform.distort [1; 2; 3; 4] (Vector2.from_coords 1 2)
    = Ok (Vector2.from_coords 4 8) /\
  AffineTransform.undistort [1; 2; 3; 4] (Vector2.from_coords 1 2)
    = Ok (Vector2.from_coords (-2) (-1)).
Proof.
  unfold AffineTransform.distort, AffineTransform.undistort. at_reals.
  split; f_equal; f_equal; field.
Qed.

(** C4: with parameters ordered [k1, k2, p1, p2, k3, k4, k5, k6], [project]
    returns the pair [(xd, yd)] of the forward formula wherever the
    denominator of the radial factor is non-zero. *)
Theorem project_formula (k1 k2 p1 p2 k3 k4 k5 k6 x y : R) :
  radial_denominator k4 k5 k6 x y <> 0 ->
  BrownConradyTransform.project [k1; k2; p1; p2; k3; k4; k5; k6]
    (Vector2.from_coords x y)
    = Ok (project_spec k1 k2 p1 p2 k3 k4 k5 k6 x y).
Proof.
  intros Hden. unfold radial_denominator in Hden.
  unfold BrownConradyTransform.project, project_spec. at_reals.
  f_equal. f_equal; field; nonzero_from Hden.
Qed.


(** *** Derivatives of the forward map *)

Lemma dlim_eq (f : R -> R) (x l l' : R) :
  derivable_pt_lim f x l' -> l' = l -> derivable_pt_lim f x l.
Proof. intros D E. rewrite <- E. exact D. Qed.

Lemma dlim_const (c x : R) : derivable_pt_lim (fun _ => c) x 0.
Proof. exact (derivable_pt_lim_const c x). Qed.

Lemma dlim_id (x : R) : derivable_pt_lim (fun t => t) x 1.
Proof. exact (derivable_pt_lim_id x). Qed.

Lemma dlim_plus (f g : R -> R) (x lf lg : R) :
  derivable_pt_lim f x lf -> derivable_pt_lim g x lg ->
  derivable_pt_lim (fun t => f t + g t) x (lf + lg).
Proof. exact (derivable_pt_lim_plus f g x lf lg). Qed.

Lemma dlim_mult (f g : R -> R) (x lf lg : R) :
  derivable_pt_lim f x lf -> derivable_pt_lim g x lg ->
  derivable_pt_lim (fun t => f t * g t) x (lf * g x + f x * lg).
Proof. exact (derivable_pt_lim_mult f g x lf lg). Qed.

Lemma dlim_div (f g : R -> R) (x lf lg : R) :
  derivable_pt_lim f x lf -> derivable_pt_lim g x lg -> g x <> 0 ->
  derivable_pt_lim (fun t => f t / g t) x
    ((lf * g x - lg * f x) / Rsqr (g x)).
Proof. exact (derivable_pt_lim_div f g x lf lg). Qed.

(** Differentiates a function built from constants, the variable, sums,
    products and quotients, leaving the quotients' side conditions. *)
Ltac dlim :=
  lazymatch goal with
  | |- derivable_pt_lim (fun _ => ?c) _ _ => apply dlim_const
  | |- derivable_pt_lim (fun t => t) _ _ => apply dlim_id
  | |- derivable_pt_lim (fun t => @?f t + @?g t) ?x _ =>
      eapply (dlim_plus f g x); dlim
  | |- derivable_pt_lim (fun t => @?f t * @?g t) ?x _ =>
      eapply (dlim_mult f g x); dlim
  | |- derivable_pt_lim (fun t => @?f t / @?g t) ?x _ =>
      eapply (dlim_div f g x); [dlim | dlim | cbv beta]
  end.

Section Jacobian.
Variables k1 k2 p1 p2 k3 k4 k5 k6 : R.

Local Abbreviation d := [k1; k2; p1; p2; k3; k4; k5; k6].


(** The entries [du_dy] and [dv_dx] of the source differ from the mixed
    partial derivatives by [cross_term_defect]. *)
Lemma jacobian_cross (x y : R) :
  radial_denominator k4 k5 k6 x y <> 0 ->
  exists j : BrownConradyTransform.jacobian R,
    BrownConradyTransform.unproject_jacobian d x y = Ok j /\
    derivable_pt_lim (fun t => project_u d x t) y
      (BrownConradyTransform.du_dy j
       + cross_term_defect k1 k2 k3 k4 k5 k6 x y) /\
    derivable_pt_lim (fun t => project_v d t y) x
      (BrownConradyTransform.dv_dx j
       + cross_term_defect k1 k2 k3 k4 k5 k6 x y).
Proof.
  intros Hden. unfold radial_denominator in Hden.
  eexists. split; [reflexivity |].
  cbn [BrownConradyTransform.du_dy BrownConradyTransform.dv_dx].
  unfold project_u, project_v, BrownConradyTransform.project,
    cross_term_defect. at_reals.
  split.
  - eapply dlim_eq; [dlim; nonzero_from Hden |].
    unfold Rsqr. field. nonzero_from Hden.
  - eapply dlim_eq; [dlim; nonzero_from Hden |].
    unfold Rsqr. field. nonzero_from Hden.
Qed.


End Jacobian.

(** C2: at the coefficients [k1 = 1], the others zero, and the estimate
    [(1, 1)], where the denominator of the radial factor is [1], the pass of
    the loop computes [du_dy = 0] and [dv_dx = 0], and neither is the mixed
    partial derivative of the forward map there (both derivatives are
    [2]). *)
Theorem jacobian_cross_entries_wrong :
  radial_denominator 0 0 0 1 1 <> 0 /\
  exists j : BrownConradyTransform.jacobian R,
    BrownConradyTransform.unproject_jacobian [1; 0; 0; 0; 0; 0; 0; 0] 1 1
      = Ok j /\
    BrownConradyTransform.du_dy j = 0 /\
    BrownConradyTransform.dv_dx j = 0 /\
    derivable_pt_lim (fun t => project_u [1; 0; 0; 0; 0; 0; 0; 0] 1 t) 1 2 /\
    derivable_pt_lim (fun t => project_v [1; 0; 0; 0; 0; 0; 0; 0] t 1) 1 2 /\
    ~ derivable_pt_lim (fun t => project_u [1; 0; 0; 0; 0; 0; 0; 0] 1 t) 1
        (BrownConradyTransform.du_dy j) /\
    ~ derivable_pt_lim (fun t => project_v [1; 0; 0; 0; 0; 0; 0; 0] t 1) 1
        (BrownConradyTransform.dv_dx j).
Proof.
  assert (Hden : radial_denominator 0 0 0 1 1 <> 0).
  { unfold radial_denominator. lra. }
  split; [exact Hden |].
  destruct (jacobian_cross 1 0 0 0 0 0 0 0 1 1 Hden) as [j [Hj [Du Dv]]].
  assert (Edef : cross_term_defect 1 0 0 0 0 0 1 1 = 2).
  { unfold cross_term_defect. field. }
  rewrite Edef in Du, Dv.
  assert (Eu : BrownConradyTransform.du_dy j = 0).
  { cbv [BrownConradyTransform.unproject_jacobian] in Hj.
    revert Hj. at_reals. intros Hj. injection Hj as <-.
    cbn [BrownConradyTransform.du_dy]. field. }
  assert (Ev : BrownConradyTransform.dv_dx j = 0).
  { cbv [BrownConradyTransform.unproject_jacobian] in Hj.
    revert Hj. at_reals. intros Hj. injection Hj as <-.
    cbn [BrownConradyTransform.dv_dx]. field. }
  exists j. rewrite Eu, Ev, Rplus_0_l in *.
  repeat split; try assumption.
  - intros A. pose proof (uniqueness_limite _ _ _ _ A Du). lra.
  - intros A. pose proof (uniqueness_limite _ _ _ _ A Dv). lra.
Qed.

End OverTheReals.

(** ** Runs over the rationals *)

(** The docstring examples of [AffineTransform], computed. *)
Example affine_examples_run :
  point_run (AffineTransform.distort (tensor_of_Z [1; 2; 3; 4]%Z)
               (point_of_Z 1 2)) = Some (4 # 1, 8 # 1) /\
  point_run (AffineTransform.undistort (tensor_of_Z [1; 2; 3; 4]%Z)
               (point_of_Z 1 2)) = Some (-2 # 1, -1 # 1).
Proof. split; vm_compute; reflexivity. Qed.

(** Four parameters are needed: with three the call raises. *)
Example affine_three_params_run :
  point_run (AffineTransform.distort (tensor_of_Z [1; 2; 3]%Z)
               (point_of_Z 1 2)) = None.
Proof. vm_compute. reflexivity. Qed.

(** A forward projection with every coefficient at work. *)
Example project_run :
  point_run (BrownConradyTransform.project
               (tensor_of_Z [1; 1; 1; 1; 1; 1; 2; 3]%Z) (point_of_Z 1 1))
    = Some (45 # 7, 45 # 7).
Proof. vm_compute. reflexivity. Qed.

(** The Jacobian entries of one pass at [k1 = 1] and the estimate [(1, 1)]:
    the diagonal is [5], the cross entries are [0]. *)
Example jacobian_run_k1 :
  jacobian_run (BrownConradyTransform.unproject_jacobian
                  (tensor_of_Z [1; 0; 0; 0; 0; 0; 0; 0]%Z) (lit 1) (lit 1))
    = Some (5 # 1, 0 # 1, 0 # 1, 5 # 1).
Proof. vm_compute. reflexivity. Qed.

(** [unproject] at the same coefficients and the target [(1, 1)]. *)
Example unproject_run :
  BrownConradyTransform.unproject
    (tensor_of_Z (T := Qc) [1; 0; 0; 0; 0; 0; 0; 0]%Z) (point_of_Z 1 1)
    = Ok None.
Proof. apply unproject_is_None. Qed.

(** ** Instances of the conditional statements *)

Section Instances.
Local Open Scope R_scope.

Lemma affine_reads_four_entries_witness :
  (forall i : nat, (i < 4)%nat ->
     nth_error [1; 2; 3; 4] i = nth_error [1; 2; 3; 4; 99] i) /\
  AffineTransform.distort [1; 2; 3; 4] (Vector2.from_coords 1 2)
    = AffineTransform.distort [1; 2; 3; 4; 99] (Vector2.from_coords 1 2) /\
  AffineTransform.undistort [1; 2; 3; 4] (Vector2.from_coords 1 2)
    = AffineTransform.undistort [1; 2; 3; 4; 99] (Vector2.from_coords 1 2).
Proof.
  assert (E : forall i : nat, (i < 4)%nat ->
            nth_error [1; 2; 3; 4] i = nth_error [1; 2; 3; 4; 99] i).
  { intros i Hi. destruct i as [| [| [| [| i]]]]; try reflexivity. lia. }
  split; [exact E |].
  apply (affine_reads_four_entries [1; 2; 3; 4] [1; 2; 3; 4; 99]
           (Vector2.from_coords 1 2)).
  exact E.
Defined.

Lemma affine_formulas_witness :
  (1 <> 0 /\ 2 <> 0) /\
  AffineTransform.undistort [1; 2; 3; 4] (Vector2.from_coords 1 2)
    = Ok (Vector2.from_coords ((1 - 3) / 1) ((2 - 4) / 2)).
Proof.
  split; [split; lra |].
  apply (proj2 (affine_formulas 1 2 3 4 1 2)); lra.
Defined.

Lemma affine_round_trip_witness :
  (1 <> 0 /\ 2 <> 0) /\
  (p <- AffineTransform.distort [1; 2; 3; 4] (Vector2.from_coords 1 2) ;;
   AffineTransform.undistort [1; 2; 3; 4] p)
    = Ok (Vector2.from_coords 1 2).
Proof.
  split; [split; lra |].
  apply (affine_round_trip 1 2 3 4 [] 1 2); lra.
Defined.

Lemma project_formula_witness :
  radial_denominator 1 2 3 1 1 <> 0 /\
  BrownConradyTransform.project [1; 1; 1; 1; 1; 1; 2; 3]
    (Vector2.from_coords 1 1)
    = Ok (project_spec 1 1 1 1 1 1 2 3 1 1).
Proof.
  assert (Hden : radial_denominator 1 2 3 1 1 <> 0).
  { unfold radial_denominator. lra. }
  split; [exact Hden |].
  apply (project_formula 1 1 1 1 1 1 2 3 1 1). exact Hden.
Defined.

End Instances.

(** ** Further properties of the transforms *)

Section MoreGeneric.
Context {T : Type} `{Scalar T}.

(** X5: with fewer than eight trailing entries in the coefficient tensor,
    [project] raises [IndexError], whatever the point. *)
Theorem project_short_params (d : Tensor.t T) (p : Vector2.t T) :
  (length d < 8)%nat ->
  BrownConradyTransform.project d p = Raise IndexError.
Proof.
  intros L.
  do 8 (destruct d as [| ? d]; [reflexivity |]).
  cbn in L. lia.
Qed.

(** X6: [project] reads entries 0 to 7 of the trailing axis only: two
    coefficient tensors that agree on them give the same outcome at every
    point. *)
Theorem project_reads_eight_entries (p q : Tensor.t T) (pt : Vector2.t T) :
  (forall i : nat, (i < 8)%nat -> nth_error p i = nth_error q i) ->
  BrownConradyTransform.project p pt = BrownConradyTransform.project q pt.
Proof.
  intros E. unfold BrownConradyTransform.project.
  rewrite (getitem_last_agree p q 0), (getitem_last_agree p q 1),
    (getitem_last_agree p q 2), (getitem_last_agree p q 3),
    (getitem_last_agree p q 4), (getitem_last_agree p q 5),
    (getitem_last_agree p q 6), (getitem_last_agree p q 7)
    by (apply E; lia).
  reflexivity.
Qed.

(** A pass of the loop of [unproject] that raises nothing reproduces its
    outcome when run again from it: the pass depends on [xy] alone and
    leaves it alone. *)
Lemma unproject_body_again (d : Tensor.t T) (uv : Vector2.t T)
  (s s' : BrownConradyTransform.locals T) :
  BrownConradyTransform.unproject_body d uv s = Ok s' ->
  BrownConradyTransform.unproject_body d uv s' = Ok s'.
Proof.
  unfold BrownConradyTransform.unproject_body. intros E.
  destruct ((BrownConradyTransform.xy s) @[..., 0]) as [x |] eqn:E0;
    cbn [bind] in E; [| discriminate].
  destruct ((BrownConradyTransform.xy s) @[..., 1]) as [y |] eqn:E1;
    cbn [bind] in E; [| discriminate].
  destruct (BrownConradyTransform.project d (Vector2.from_coords x y))
    as [p |] eqn:Ep; cbn [bind] in E; [| discriminate].
  destruct (BrownConradyTransform.unproject_jacobian d x y)
    as [j |] eqn:Ej; cbn [bind] in E; [| discriminate].
  injection E as <-. cbn [BrownConradyTransform.xy].
  rewrite E0. cbn [bind]. rewrite E1. cbn [bind]. rewrite Ep. cbn [bind].
  rewrite Ej. reflexivity.
Qed.

Lemma for_range_again (d : Tensor.t T) (uv : Vector2.t T)
  (s' : BrownConradyTransform.locals T) (n : nat) :
  BrownConradyTransform.unproject_body d uv s' = Ok s' ->
  for_range n (BrownConradyTransform.unproject_body d uv) s' = Ok s'.
Proof.
  intros E. induction n as [| n IH]; [reflexivity |].
  cbn [for_range]. rewrite E. exact IH.
Qed.

Lemma for_range_one_pass (d : Tensor.t T) (uv : Vector2.t T)
  (s : BrownConradyTransform.locals T) (n : nat) :
  for_range (S n) (BrownConradyTransform.unproject_body d uv) s
    = BrownConradyTransform.unproject_body d uv s.
Proof.
  cbn [for_range].
  destruct (BrownConradyTransform.unproject_body d uv s) as [s' | e] eqn:E;
    cbn [bind]; [| reflexivity].
  apply for_range_again. apply (unproject_body_again d uv s s' E).
Qed.

(** X9: the 50 passes of the loop of [unproject] amount to one: for every
    coefficient tensor and target the loop ends as its first pass does, with
    the same local variables or the same exception. *)
Theorem unproject_loop_is_one_pass (d : Tensor.t T) (uv : Vector2.t T) :
  BrownConradyTransform.unproject_loop d uv
    = BrownConradyTransform.unproject_body d uv
        (BrownConradyTransform.Locals (Vector2.data uv) None None).
Proof.
  unfold BrownConradyTransform.unproject_loop.
  apply (for_range_one_pass d uv _ 49).
Qed.


End MoreGeneric.

Section MoreOverTheReals.
Local Open Scope R_scope.

(** X2: the round trip in the other order: for non-zero [fx] and [fy],
    distorting an undistorted point gives the point back. *)
Theorem affine_distort_after_undistort (fx fy cx cy : R) (rest : list R)
  (u v : R) :
  fx <> 0 -> fy <> 0 ->
  (p <- AffineTransform.undistort (fx :: fy :: cx :: cy :: rest)
          (Vector2.from_coords u v) ;;
   AffineTransform.distort (fx :: fy :: cx :: cy :: rest) p)
    = Ok (Vector2.from_coords u v).
Proof.
  intros Hfx Hfy.
  unfold AffineTransform.distort, AffineTransform.undistort. at_reals.
  f_equal. f_equal; field; assumption.
Qed.







End MoreOverTheReals.

(** ** Instances of the further conditional statements *)

Section MoreInstances.
Local Open Scope R_scope.

Lemma affine_short_params_witness :
  (length [1; 2; 3] < 4)%nat /\
  AffineTransform.distort [1; 2; 3] (Vector2.from_coords 1 2)
    = Raise IndexError /\
  AffineTransform.undistort [1; 2; 3] (Vector2.from_coords 1 2)
    = Raise IndexError.
Proof.
  assert (L : (length [1; 2; 3] < 4)%nat) by (cbn; lia).
  split; [exact L |].
  apply (affine_short_params [1; 2; 3] (Vector2.from_coords 1 2)). exact L.
Defined.

Lemma affine_distort_after_undistort_witness :
  (1 <> 0 /\ 2 <> 0) /\
  (p <- AffineTransform.undistort [1; 2; 3; 4] (Vector2.from_coords 1 2) ;;
   AffineTransform.distort [1; 2; 3; 4] p)
    = Ok (Vector2.from_coords 1 2).
Proof.
  split; [split; lra |].
  apply (affine_distort_after_undistort 1 2 3 4 [] 1 2); lra.
Defined.


Lemma project_short_params_witness :
  (length [1; 2; 3; 4; 5; 6; 7] < 8)%nat /\
  BrownConradyTransform.project [1; 2; 3; 4; 5; 6; 7]
    (Vector2.from_coords 1 2) = Raise IndexError.
Proof.
  assert (L : (length [1; 2; 3; 4; 5; 6; 7] < 8)%nat) by (cbn; lia).
  split; [exact L |].
  apply (project_short_params [1; 2; 3; 4; 5; 6; 7]
           (Vector2.from_coords 1 2)).
  exact L.
Defined.

Lemma project_reads_eight_entries_witness :
  (forall i : nat, (i < 8)%nat ->
     nth_error [1; 1; 1; 1; 1; 1; 2; 3] i
     = nth_error [1; 1; 1; 1; 1; 1; 2; 3; 99] i) /\
  BrownConradyTransform.project [1; 1; 1; 1; 1; 1; 2; 3]
    (Vector2.from_coords 1 1)
    = BrownConradyTransform.project [1; 1; 1; 1; 1; 1; 2; 3; 99]
        (Vector2.from_coords 1 1).
Proof.
  assert (E : forall i : nat, (i < 8)%nat ->
            nth_error [1; 1; 1; 1; 1; 1; 2; 3] i
            = nth_error [1; 1; 1; 1; 1; 1; 2; 3; 99] i).
  { intros i Hi.
    do 8 (destruct i as [| i]; [reflexivity |]). lia. }
  split; [exact E |].
  apply (project_reads_eight_entries [1; 1; 1; 1; 1; 1; 2; 3]
           [1; 1; 1; 1; 1; 1; 2; 3; 99] (Vector2.from_coords 1 1)).
  exact E.
Defined.



End MoreInstances.
